(** * The handbook agent of [3-search-handbook.py]

    A shallow embedding of the tool-calling agent loop [ask_agent], of the
    lookup tool [search_handbook] and of the output models [Citation] and
    [HandbookAnswer], followed by the properties of the loop.

    The script talks to three collaborators that live outside of it: the
    chat-completion endpoint of the SDK, [json.loads], and the file at
    [HANDBOOK_PATH].  They are gathered in a record [Env]; every theorem
    quantifies over it.  Python exceptions are values of type [exn], and
    the script's effects (completion requests, prints, file accesses) are
    recorded, in order, in a trace.  A Python [str] is a [string] here, one
    character of the model for one character of the script. *)

From Stdlib Require Import Ascii String.
From stdpp Require Import base option list strings gmap pretty.

Local Set Warnings "-register-all".
Open Scope string_scope.
Open Scope list_scope.
Open Scope stdpp_scope.

(** ** Python values produced by [json.loads] *)

Inductive pyvalue : Type :=
| PyNone
| PyBool (b : bool)
| PyInt (n : Z)
| PyFloat (repr : string)
| PyStr (s : string)
| PyList (l : list pyvalue)
| PyDict (d : gmap string pyvalue).

(** ** Exceptions

    [APIError] stands for whatever the completion call raises and
    [FileError] for what [Path.read_text] raises ([OSError],
    [UnicodeDecodeError]); both carry the exception's text. *)

Inductive exn : Type :=
| APIError (msg : string)
| IndexError                     (* [choices[0]] on an empty list *)
| TypeError                      (* bad argument to [json.loads] or to [**] *)
| JSONDecodeError                (* [json.loads] on a malformed document *)
| ValueError (msg : string)
| ValidationError                (* pydantic's, from [model_validate] *)
| FileError (msg : string).

(** [str(e)]: the text carried by the exception; the built-in exceptions
    whose text the model does not track print as their fixed CPython
    message or as the empty string. *)
Definition str (e : exn) : string :=
  match e with
  | APIError msg | ValueError msg | FileError msg => msg
  | IndexError => "list index out of range"
  | TypeError | JSONDecodeError | ValidationError => ""
  end.

(** ** The output models (pydantic) *)

Record Citation : Type := { text : string; section : string }.

Record HandbookAnswer : Type :=
  { answer : string; citations : list Citation }.

(** The declared shape of a model, as [model_json_schema] reports it. *)
Inductive field_type : Type :=
| TString
| TArrayOf (ref : string).

Record FieldInfo : Type :=
  { field_name : string; field_ty : field_type; field_description : string }.

Record Schema : Type :=
  { schema_title : string;
    schema_description : string;
    schema_properties : list FieldInfo;
    schema_required : list string;
    schema_defs : list (string * list FieldInfo) }.

Definition Citation_fields : list FieldInfo :=
  [ {| field_name := "text"; field_ty := TString;
       field_description := "A brief text excerpt from the handbook." |};
    {| field_name := "section"; field_ty := TString;
       field_description := "The section number (e.g., '2.1', '3.2')." |} ].

Definition HandbookAnswer_fields : list FieldInfo :=
  [ {| field_name := "answer"; field_ty := TString;
       field_description :=
         "The clear, comprehensive answer to the user's question." |};
    {| field_name := "citations"; field_ty := TArrayOf "Citation";
       field_description :=
         "A list of 2-4 key citations from the handbook content." |} ].

Definition HANDBOOK_ANSWER_SCHEMA : Schema :=
  {| schema_title := "HandbookAnswer";
     schema_description :=
       "The final, comprehensive answer supported by citations.";
     schema_properties := HandbookAnswer_fields;
     schema_required := field_name <$> HandbookAnswer_fields;
     schema_defs := [("Citation", Citation_fields)] |}.

(** [Citation.model_validate]: a dict with string fields [text] and
    [section]; other keys are ignored. *)
Definition Citation_validate (v : pyvalue) : option Citation :=
  match v with
  | PyDict d =>
      match d !! "text", d !! "section" with
      | Some (PyStr t), Some (PyStr s) => Some {| text := t; section := s |}
      | _, _ => None
      end
  | _ => None
  end.

(** [HandbookAnswer.model_validate]: a dict with a string field [answer]
    and a list field [citations] whose items all validate as [Citation].
    The declaration puts no bound on the length of the list. *)
Definition model_validate (v : pyvalue) : exn + HandbookAnswer :=
  match v with
  | PyDict d =>
      match d !! "answer", d !! "citations" with
      | Some (PyStr a), Some (PyList l) =>
          match mapM Citation_validate l with
          | Some cs => inr {| answer := a; citations := cs |}
          | None => inl ValidationError
          end
      | _, _ => inl ValidationError
      end
  | _ => inl ValidationError
  end.

(** ** What the SDK sends and returns *)

Record Function : Type := { name : string; arguments : string }.

Record ToolCall : Type := { tc_id : string; tc_function : Function }.

Record ChatCompletionMessage : Type :=
  { content : option string; tool_calls : option (list ToolCall) }.

Record Choice : Type := { message : ChatCompletionMessage }.

Record ChatCompletion : Type := { choices : list Choice }.

(** An entry of the [messages] list: a dict literal of the script, or the
    message object of a response appended as it is. *)
Inductive msg_entry : Type :=
| Dict (d : gmap string string)
| Obj (m : ChatCompletionMessage).

(** The SDK declares [role: Literal["assistant"]] on its message class. *)
Definition role (m : msg_entry) : option string :=
  match m with
  | Dict d => d !! "role"
  | Obj _ => Some "assistant"
  end.

Record ToolParam : Type :=
  { param_name : string; param_type : string; param_description : string }.

Record ToolDescriptor : Type :=
  { tool_type : string;
    tool_name : string;
    tool_description : string;
    tool_parameters_type : string;
    tool_properties : list ToolParam;
    tool_required : list string }.

Record ResponseFormat : Type := { rf_type : string; rf_schema : Schema }.

(** The keyword arguments of one [client.chat.completions.create] call;
    [None] for a keyword the call does not pass. *)
Record Request : Type :=
  { rq_model : string;
    rq_messages : list msg_entry;
    rq_tools : option (list ToolDescriptor);
    rq_tool_choice : option string;
    rq_system_prompt : option string;
    rq_response_format : option ResponseFormat;
    rq_temperature : option string }.

(** ** The environment and the effects *)

Inductive FileState : Type :=
| Absent
| Unreadable (e : string)     (* present, [read_text] raises; [e] its text *)
| Readable (contents : string)
| Inaccessible (e : string).  (* [exists()] itself raises, as it does on an
                                 [OSError] other than a missing path, e.g.
                                 [PermissionError] under a directory that
                                 cannot be searched; [e] is its text *)

Record Env : Type :=
  { json_parse : string -> option pyvalue;
    (* the response to the [n]-th request of a run *)
    completion : nat -> Request -> exn + ChatCompletion;
    handbook_file : FileState }.

Inductive event : Type :=
| EvCreate (r : Request)
| EvPrint (line : string)
| EvExists
| EvReadText.

Definition M (A : Type) : Type :=
  Env -> list event -> list event * (exn + A).

Global Instance M_ret : MRet M := fun A x _ t => (t, inr x).

Global Instance M_bind : MBind M := fun A B f m env t =>
  match m env t with
  | (t', inr x) => f x env t'
  | (t', inl e) => (t', inl e)
  end.

Definition raise {A : Type} (e : exn) : M A := fun _ t => (t, inl e).

Definition try_except {A : Type} (m : M A) (handler : exn -> M A) : M A :=
  fun env t =>
    match m env t with
    | (t', inl e) => handler e env t'
    | r => r
    end.

Definition emit (ev : event) : M unit := fun _ t => (t ++ [ev], inr tt).

Definition print (line : string) : M unit := emit (EvPrint line).

Definition is_create (ev : event) : option Request :=
  match ev with EvCreate r => Some r | _ => None end.

(** The requests of a trace, in the order they were issued. *)
Definition requests (t : list event) : list Request := omap is_create t.

Definition create (r : Request) : M ChatCompletion := fun env t =>
  (t ++ [EvCreate r], completion env (length (requests t)) r).

(** [json.loads]: [TypeError] on [None], [JSONDecodeError] on a string
    that is not a JSON document. *)
Definition json_loads (s : option string) : M pyvalue := fun env t =>
  match s with
  | None => (t, inl TypeError)
  | Some doc =>
      match json_parse env doc with
      | Some v => (t, inr v)
      | None => (t, inl JSONDecodeError)
      end
  end.

Definition HANDBOOK_PATH_exists : M bool := fun env t =>
  (t ++ [EvExists],
   match handbook_file env with
   | Absent => inr false
   | Unreadable _ | Readable _ => inr true
   | Inaccessible e => inl (FileError e)
   end).

Definition HANDBOOK_PATH_read_text : M string := fun env t =>
  (t ++ [EvReadText],
   match handbook_file env with
   | Readable contents => inr contents
   | Unreadable e => inl (FileError e)
   | Absent => inl (FileError "No such file or directory")
   | Inaccessible e => inl (FileError e)
     (* neither is reached: the script tests the path first *)
   end).

(** ** The script *)

Definition MODEL : string := "llama-3.3-70b-versatile".

(** [search_handbook(query)].  The query is bound and never read.  The
    path test stands before the [try]: what it raises is not caught. *)
Definition search_handbook (query : pyvalue) : M string :=
  found ← HANDBOOK_PATH_exists;
  if negb found then
    mret "ERROR: Handbook file not found at expected path."
  else
    try_except
      (handbook_content ← HANDBOOK_PATH_read_text;
       mret handbook_content)
      (fun e => mret ("ERROR: Could not read handbook file: " +:+ str e)).

Definition tools : list ToolDescriptor :=
  [ {| tool_type := "function";
       tool_name := "search_handbook";
       tool_description :=
         "Retrieve the AI implementation handbook content. Use this when the user asks questions about AI implementation requirements, regulations, or procedures for Dutch government organizations.";
       tool_parameters_type := "object";
       tool_properties :=
         [ {| param_name := "query"; param_type := "string";
              param_description := "The user's question or search query." |} ];
       tool_required := ["query"] |} ].

(** A Python function of one parameter without default, and its call
    [f( **kwargs )]: the argument must be a dict whose only key is the
    parameter's name. *)
Record pyfunction : Type :=
  { param : string; body : pyvalue -> M string }.

Definition call_kwargs (f : pyfunction) (kwargs : pyvalue) : M string :=
  match kwargs with
  | PyDict d =>
      match d !! param f with
      | Some v => if decide (size d = 1) then body f v else raise TypeError
      | None => raise TypeError
      end
  | _ => raise TypeError
  end.

Definition AVAILABLE_FUNCTIONS : gmap string pyfunction :=
  {[ "search_handbook" := {| param := "query"; body := search_handbook |} ]}.

Definition SYSTEM_PROMPT : string :=
  "You are a helpful assistant for Dutch government organizations. You can help answer questions about AI implementation policies and regulations by using the 'search_handbook' tool. If asked what you can do, simply explain your capabilities without searching the handbook. Your final output MUST be a JSON object conforming to the HandbookAnswer schema.".

Definition FINAL_INSTRUCTION : string :=
  " Use the retrieved handbook content to answer the question. Provide a clear, comprehensive answer. Include only the most important citations (2-4 maximum) that reference the primary sections where the key information comes from. Each citation should include a brief text excerpt and the section number (e.g., '2.1', '3.2'). Do not cite every detail - only cite the main sources.".

Definition DIRECT_INSTRUCTION : string :=
  " Answer directly. Since you did not use the tool, return an empty list for 'citations'.".

Definition newline : string := String "010"%char "".

(** [choices[0].message] *)
Definition first_message (r : ChatCompletion) : M ChatCompletionMessage :=
  match choices r with
  | c :: _ => mret (message c)
  | [] => raise IndexError
  end.

(** The dict appended for one tool result. *)
Definition tool_message (tool_call : ToolCall) (function_name : string)
    (function_response_text : string) : msg_entry :=
  Dict {[ "tool_call_id" := tc_id tool_call;
          "role" := "tool";
          "name" := function_name;
          "content" := function_response_text ]}.

(** One round of the loop over [response_message.tool_calls]; it returns
    the [messages] list after the round. *)
Definition tool_call_round (tool_call : ToolCall)
    (messages : list msg_entry) : M (list msg_entry) :=
  let function_name := name (tc_function tool_call) in
  function_args ← json_loads (Some (arguments (tc_function tool_call)));
  match AVAILABLE_FUNCTIONS !! function_name with
  | Some function_to_call =>
      function_response_text ← call_kwargs function_to_call function_args;
      _ ← print ("Handbook retrieved ("
                 +:+ pretty (String.length function_response_text)
                 +:+ " chars)");
      mret (messages ++ [tool_message tool_call function_name
                           function_response_text])
  | None => raise (ValueError ("Unknown function: " +:+ function_name))
  end.

Fixpoint for_tool_calls (tcs : list ToolCall) (messages : list msg_entry)
    : M (list msg_entry) :=
  match tcs with
  | [] => mret messages
  | tool_call :: rest =>
      messages' ← tool_call_round tool_call messages;
      for_tool_calls rest messages'
  end.

Definition initial_request (messages : list msg_entry) : Request :=
  {| rq_model := MODEL;
     rq_messages := messages;
     rq_tools := Some tools;
     rq_tool_choice := Some "auto";
     rq_system_prompt := Some SYSTEM_PROMPT;
     rq_response_format := None;
     rq_temperature := None |}.

(** The two requests that constrain the output to the answer schema. *)
Definition schema_request (messages : list msg_entry)
    (instruction : string) : Request :=
  {| rq_model := MODEL;
     rq_messages := messages;
     rq_tools := None;
     rq_tool_choice := None;
     rq_system_prompt := Some (SYSTEM_PROMPT +:+ instruction);
     rq_response_format :=
       Some {| rf_type := "json_object"; rf_schema := HANDBOOK_ANSWER_SCHEMA |};
     rq_temperature := Some "0.0" |}.

(** Parsing and validating the content of a schema-constrained response. *)
Definition parse_answer (r : ChatCompletion) : M HandbookAnswer :=
  m ← first_message r;
  let json_string := content m in
  parsed_data ← json_loads json_string;
  match model_validate parsed_data with
  | inr a => mret a
  | inl e => raise e
  end.

Definition ask_agent (query : string) : M HandbookAnswer :=
  let messages := [Dict {[ "role" := "user"; "content" := query ]}] in
  initial_response ← create (initial_request messages);
  response_message ← first_message initial_response;
  match tool_calls response_message with
  | Some ((tool_call0 :: _) as tcs) =>
      _ ← print ("Tool called: " +:+ name (tc_function tool_call0));
      let messages := messages ++ [Obj response_message] in
      messages ← for_tool_calls tcs messages;
      _ ← print "Generating final structured answer...";
      final_completion ← create (schema_request messages FINAL_INSTRUCTION);
      parse_answer final_completion
  | _ =>
      _ ← print ("No tool call needed, responding directly" +:+ newline);
      direct_completion ← create (schema_request messages DIRECT_INSTRUCTION);
      parse_answer direct_completion
  end.

(** Running a computation from the empty trace. *)
Definition run {A : Type} (env : Env) (m : M A) : list event * (exn + A) :=
  m env [].

(** ** Vocabulary of the statements *)

Definition user_message (query : string) : msg_entry :=
  Dict {[ "role" := "user"; "content" := query ]}.

(** The message of the response to the initial request, if there is one. *)
Definition initial_message (env : Env) (query : string)
    : option ChatCompletionMessage :=
  match completion env 0 (initial_request [user_message query]) with
  | inr resp => message <$> head (choices resp)
  | inl _ => None
  end.

(** The model asked for the tool invocations [tcs] (at least one). *)
Definition tool_branch (env : Env) (query : string)
    (rm : ChatCompletionMessage) (tcs : list ToolCall) : Prop :=
  initial_message env query = Some rm /\ tool_calls rm = Some tcs /\ tcs <> [].

(** The model asked for no tool invocation. *)
Definition no_tool_branch (env : Env) (query : string)
    (rm : ChatCompletionMessage) : Prop :=
  initial_message env query = Some rm /\
  (tool_calls rm = None \/ tool_calls rm = Some []).

(** An invocation that suits the tool: the name is registered and the
    arguments are a JSON object whose only key is [query]. *)
Definition well_formed_call (env : Env) (tc : ToolCall) : Prop :=
  name (tc_function tc) = "search_handbook" /\
  exists d v, json_parse env (arguments (tc_function tc)) = Some (PyDict d) /\
              d !! "query" = Some v /\ size d = 1.

(** What [search_handbook] returns and what it does, by file state; it
    returns no text when the path test raises. *)
Definition lookup_text (env : Env) : string :=
  match handbook_file env with
  | Absent => "ERROR: Handbook file not found at expected path."
  | Unreadable e => "ERROR: Could not read handbook file: " +:+ e
  | Readable contents => contents
  | Inaccessible _ => ""
  end.

Definition lookup_events (env : Env) : list event :=
  match handbook_file env with
  | Absent | Inaccessible _ => [EvExists]
  | Unreadable _ | Readable _ => [EvExists; EvReadText]
  end.

(** The outcome of [search_handbook]: its text, or the exception of the
    path test. *)
Definition lookup_result (env : Env) : exn + string :=
  match handbook_file env with
  | Inaccessible e => inl (FileError e)
  | _ => inr (lookup_text env)
  end.

(** The path test answers: it does not raise. *)
Definition path_testable (env : Env) : Prop :=
  forall e, handbook_file env <> Inaccessible e.

(** An invocation the loop completes: it suits the tool, and the tool
    returns. *)
Definition completed_call (env : Env) (tc : ToolCall) : Prop :=
  well_formed_call env tc /\ path_testable env.

Definition is_exists (ev : event) : bool :=
  match ev with EvExists => true | _ => false end.

(** How often the lookup tool ran in a trace (it tests the path once per
    run of its body). *)
Definition tool_runs (t : list event) : nat := length (filter is_exists t).


(** The line printed after each run of the lookup tool. *)
Definition retrieved_line (env : Env) : string :=
  "Handbook retrieved (" +:+ pretty (String.length (lookup_text env))
  +:+ " chars)".

(** The events of the loop over the completed invocations [tcs]. *)
Definition loop_events (env : Env) (tcs : list ToolCall) : list event :=
  tcs ≫= (fun _ => lookup_events env ++ [EvPrint (retrieved_line env)]).

(** The tool-result entries for the completed invocations [tcs]. *)
Definition tool_results (env : Env) (tcs : list ToolCall) : list msg_entry :=
  (fun tc => tool_message tc "search_handbook" (lookup_text env)) <$> tcs.

(** The line printed on entering the tool branch. *)
Definition tool_banner (tcs : list ToolCall) : string :=
  match tcs with
  | tc :: _ => "Tool called: " +:+ name (tc_function tc)
  | [] => ""
  end.

(** [json.loads] then [model_validate], as a value. *)
Definition decode (env : Env) (json_string : option string)
    : exn + HandbookAnswer :=
  match json_string with
  | None => inl TypeError
  | Some doc =>
      match json_parse env doc with
      | Some v => model_validate v
      | None => inl JSONDecodeError
      end
  end.

(** The outcome of the second request of a run, [req]. *)
Definition second_outcome (env : Env) (req : Request)
    : exn + HandbookAnswer :=
  match completion env 1 req with
  | inl e => inl e
  | inr resp =>
      match choices resp with
      | c :: _ => decode env (content (message c))
      | [] => inl IndexError
      end
  end.

(** ** Sample environments

    [sample_parse] is [json.loads] on the five documents below, the only
    ones the sample runs parse: four JSON objects, and [doc_broken],
    which is not JSON. *)

Definition dq : string := String "034"%char "".
Definition quoted (s : string) : string := dq +:+ s +:+ dq.

Definition doc_args : string :=
  "{" +:+ quoted "query" +:+ ": " +:+ quoted "algorithm register" +:+ "}".

Definition doc_broken : string := "{".

Definition doc_plain : string :=
  "{" +:+ quoted "answer" +:+ ": " +:+ quoted "I answer handbook questions."
  +:+ ", " +:+ quoted "citations" +:+ ": []}".

Definition doc_cited : string :=
  "{" +:+ quoted "answer" +:+ ": " +:+ quoted "Register it before use."
  +:+ ", " +:+ quoted "citations" +:+ ": [{" +:+ quoted "text" +:+ ": "
  +:+ quoted "must be registered" +:+ ", " +:+ quoted "section" +:+ ": "
  +:+ quoted "2.1" +:+ "}]}".

Definition doc_partial : string :=
  "{" +:+ quoted "answer" +:+ ": " +:+ quoted "Register it before use." +:+ "}".

Definition sample_parse (doc : string) : option pyvalue :=
  if decide (doc = doc_args) then
    Some (PyDict {[ "query" := PyStr "algorithm register" ]})
  else if decide (doc = doc_plain) then
    Some (PyDict {[ "answer" := PyStr "I answer handbook questions.";
                    "citations" := PyList [] ]})
  else if decide (doc = doc_cited) then
    Some (PyDict {[ "answer" := PyStr "Register it before use.";
                    "citations" :=
                      PyList [PyDict {[ "text" := PyStr "must be registered";
                                        "section" := PyStr "2.1" ]}] ]})
  else if decide (doc = doc_partial) then
    Some (PyDict {[ "answer" := PyStr "Register it before use." ]})
  else None.

Definition reply (c : option string) (tcs : option (list ToolCall))
    : exn + ChatCompletion :=
  inr {| choices := [ {| message := {| content := c; tool_calls := tcs |} |} ] |}.

Definition call (i fname args : string) : ToolCall :=
  {| tc_id := i; tc_function := {| name := fname; arguments := args |} |}.

(** An environment whose endpoint answers the first request of a run with
    [first] and every later one with [second]. *)
Definition sample_env (first second : exn + ChatCompletion)
    (file : FileState) : Env :=
  {| json_parse := sample_parse;
     completion := fun n _ => match n with 0 => first | _ => second end;
     handbook_file := file |}.

(** No tool requested; the direct answer cites nothing. *)
Definition env_direct : Env :=
  sample_env (reply (Some "I answer handbook questions.") None)
             (reply (Some doc_plain) None) (Readable "2.1 Registration").

(** No tool requested; the direct answer cites a section all the same. *)
Definition env_direct_cited : Env :=
  sample_env (reply (Some "I answer handbook questions.") None)
             (reply (Some doc_cited) None) (Readable "2.1 Registration").

(** One lookup, on a readable handbook; the final answer has one citation. *)
Definition env_lookup : Env :=
  sample_env (reply None (Some [call "call_1" "search_handbook" doc_args]))
             (reply (Some doc_cited) None) (Readable "2.1 Registration").

(** One lookup, on a readable handbook; the final answer cites nothing. *)
Definition env_lookup_uncited : Env :=
  sample_env (reply None (Some [call "call_1" "search_handbook" doc_args]))
             (reply (Some doc_plain) None) (Readable "2.1 Registration").

(** One lookup, handbook file missing. *)
Definition env_missing : Env :=
  sample_env (reply None (Some [call "call_1" "search_handbook" doc_args]))
             (reply (Some doc_plain) None) Absent.

(** An unregistered tool, called with arguments that are valid JSON. *)
Definition env_unknown : Env :=
  sample_env (reply None (Some [call "call_1" "get_weather" doc_args]))
             (reply (Some doc_plain) None) (Readable "2.1 Registration").

(** An unregistered tool, called with arguments that are not JSON. *)
Definition env_unknown_broken : Env :=
  sample_env (reply None (Some [call "call_1" "get_weather" doc_broken]))
             (reply (Some doc_plain) None) (Readable "2.1 Registration").

(** One lookup; the final response lacks the [citations] field. *)
Definition env_partial : Env :=
  sample_env (reply None (Some [call "call_1" "search_handbook" doc_args]))
             (reply (Some doc_partial) None) (Readable "2.1 Registration").

Definition sample_query : string :=
  "What are the requirements for registering an AI system in the Algorithm Register?".

(** ** The entry point of the script

    The block under [if __name__ == "__main__"].  The mark that opens the
    error line is kept as the bytes of the source text, and the line
    carries [str e]: for the exceptions whose text the model does not
    track, the text of that one line is the model's, not Python's; no
    statement below depends on it. *)










(** ** Vocabulary of the further statements *)

(** The environment as a computation sees it once [n] requests have been
    issued: its next request is the [n]-th of the run. *)
Definition later (n : nat) (env : Env) : Env :=
  {| json_parse := json_parse env;
     completion := fun k => completion env (n + k);
     handbook_file := handbook_file env |}.

(** The tool invocations the model asks for in answer to [query]. *)
Definition requested_calls (env : Env) (query : string) : list ToolCall :=
  match initial_message env query with
  | Some rm => default [] (tool_calls rm)
  | None => []
  end.


Definition is_print (ev : event) : option string :=
  match ev with EvPrint line => Some line | _ => None end.

(** The lines printed in a trace, in order. *)
Definition printed (t : list event) : list string := omap is_print t.



(** ** Further sample environments *)

(** One lookup; the directory of the handbook cannot be searched, so the
    path test raises [PermissionError]. *)
Definition env_inaccessible : Env :=
  sample_env (reply None (Some [call "call_1" "search_handbook" doc_args]))
             (reply (Some doc_plain) None)
             (Inaccessible "[Errno 13] Permission denied: 'data/handbook.md'").

(** The endpoint is down from the first request on. *)
Definition env_down : Env :=
  sample_env (inl (APIError "503 Service Unavailable"))
             (inl (APIError "503 Service Unavailable"))
             (Readable "2.1 Registration").

(** The endpoint answers the first request and fails on the second. *)
Definition env_down_later : Env :=
  sample_env (reply (Some "I answer handbook questions.") None)
             (inl (APIError "503 Service Unavailable"))
             (Readable "2.1 Registration").

(** The first response has no choice at all. *)
Definition env_no_choice : Env :=
  sample_env (inr {| choices := [] |}) (reply (Some doc_plain) None)
             (Readable "2.1 Registration").

(** Two lookups requested; the arguments of the second are a JSON object
    without the key [query]. *)
Definition env_bad_arguments : Env :=
  sample_env (reply None (Some [call "call_1" "search_handbook" doc_args;
                                call "call_2" "search_handbook" doc_partial]))
             (reply (Some doc_plain) None) (Readable "2.1 Registration").

(** The branch taken by a sample run, by evaluation. *)
Ltac sample_branch :=
  split; [vm_compute; reflexivity|];
  first [by left | split; [reflexivity|done]].

(** * Properties *)

(** ** The effect monad *)

Lemma bind_run {A B : Type} (m : M A) (k : A -> M B) env t :
  (m ≫= k) env t =
  match m env t with
  | (t', inr x) => k x env t'
  | (t', inl e) => (t', inl e)
  end.
Proof. reflexivity. Qed.

Lemma requests_app t1 t2 : requests (t1 ++ t2) = requests t1 ++ requests t2.
Proof. apply omap_app. Qed.

Lemma tool_runs_app t1 t2 : tool_runs (t1 ++ t2) = tool_runs t1 + tool_runs t2.
Proof. unfold tool_runs. by rewrite filter_app, length_app. Qed.

Section Agent.

Context (env : Env).

(** ** The lookup tool *)

Lemma search_handbook_run query t :
  search_handbook query env t = (t ++ lookup_events env, lookup_result env).
Proof.
  unfold search_handbook, lookup_events, lookup_result, lookup_text.
  rewrite bind_run. unfold HANDBOOK_PATH_exists.
  destruct (handbook_file env) as [|e|contents|e] eqn:Hfile; simpl.
  - reflexivity.
  - unfold try_except. rewrite bind_run. unfold HANDBOOK_PATH_read_text.
    rewrite Hfile. simpl. by rewrite <- app_assoc.
  - unfold try_except. rewrite bind_run. unfold HANDBOOK_PATH_read_text.
    rewrite Hfile. simpl. by rewrite <- app_assoc.
  - reflexivity.
Qed.

Lemma lookup_result_testable :
  path_testable env -> lookup_result env = inr (lookup_text env).
Proof.
  unfold path_testable, lookup_result. intros Htest.
  destruct (handbook_file env) as [|e|contents|e]; try done.
  by destruct (Htest e).
Qed.

Lemma path_testable_cases :
  path_testable env \/ exists e, handbook_file env = Inaccessible e.
Proof.
  unfold path_testable.
  destruct (handbook_file env) as [|e|contents|e]; [by left..|right; eauto].
Qed.

Lemma completed_calls tcs :
  path_testable env ->
  Forall (well_formed_call env) tcs -> Forall (completed_call env) tcs.
Proof. intros Htest Hwf. eapply Forall_impl; [exact Hwf|]. by split. Qed.

Lemma requests_lookup_events : requests (lookup_events env) = [].
Proof. unfold lookup_events. by destruct (handbook_file env). Qed.

Lemma tool_runs_lookup_events : tool_runs (lookup_events env) = 1.
Proof. unfold lookup_events. by destruct (handbook_file env). Qed.

Lemma lookup_registered fname f :
  AVAILABLE_FUNCTIONS !! fname = Some f ->
  fname = "search_handbook" /\ param f = "query" /\ body f = search_handbook.
Proof.
  unfold AVAILABLE_FUNCTIONS. intros [-> <-]%lookup_singleton_Some. done.
Qed.

Lemma lookup_search_handbook :
  AVAILABLE_FUNCTIONS !! "search_handbook"
  = Some {| param := "query"; body := search_handbook |}.
Proof. apply lookup_singleton_eq. Qed.

(** ** One round of the loop *)

Lemma tool_call_round_lookup tc msgs t :
  well_formed_call env tc ->
  tool_call_round tc msgs env t
  = match lookup_result env with
    | inr function_response_text =>
        (t ++ lookup_events env
           ++ [EvPrint ("Handbook retrieved ("
                        +:+ pretty (String.length function_response_text)
                        +:+ " chars)")],
         inr (msgs ++ [tool_message tc "search_handbook"
                         function_response_text]))
    | inl e => (t ++ lookup_events env, inl e)
    end.
Proof.
  intros [Hname (d & v & Hparse & Hquery & Hsize)].
  unfold tool_call_round. rewrite Hname, bind_run.
  unfold json_loads. rewrite Hparse, lookup_search_handbook, bind_run.
  unfold call_kwargs; cbn [param body]. rewrite Hquery.
  rewrite decide_True by done. rewrite search_handbook_run.
  destruct (lookup_result env) as [e|text]; [done|]. rewrite bind_run.
  unfold print, emit. by rewrite <- app_assoc.
Qed.

Lemma tool_call_round_ok tc msgs t :
  completed_call env tc ->
  tool_call_round tc msgs env t
  = (t ++ lookup_events env ++ [EvPrint (retrieved_line env)],
     inr (msgs ++ [tool_message tc "search_handbook" (lookup_text env)])).
Proof.
  intros [Hwf Htest].
  by rewrite tool_call_round_lookup, lookup_result_testable.
Qed.

(** The path test raises in the round of an invocation that suits the
    tool: the exception leaves the round, after the one file access. *)
Lemma tool_call_round_inaccessible tc e msgs t :
  well_formed_call env tc ->
  handbook_file env = Inaccessible e ->
  tool_call_round tc msgs env t = (t ++ [EvExists], inl (FileError e)).
Proof.
  intros Hwf Hfile. rewrite tool_call_round_lookup by done.
  unfold lookup_result, lookup_events. by rewrite Hfile.
Qed.

Lemma tool_call_round_unparsable tc msgs t :
  json_parse env (arguments (tc_function tc)) = None ->
  tool_call_round tc msgs env t = (t, inl JSONDecodeError).
Proof.
  intros Hparse. unfold tool_call_round. rewrite bind_run.
  unfold json_loads. by rewrite Hparse.
Qed.

Lemma tool_call_round_unknown tc v msgs t :
  json_parse env (arguments (tc_function tc)) = Some v ->
  AVAILABLE_FUNCTIONS !! name (tc_function tc) = None ->
  tool_call_round tc msgs env t
  = (t, inl (ValueError ("Unknown function: " +:+ name (tc_function tc)))).
Proof.
  intros Hparse Hreg. unfold tool_call_round. rewrite bind_run.
  unfold json_loads. by rewrite Hparse, Hreg.
Qed.

(** An invocation suits the tool, or its round raises before any effect;
    the error depends on the invocation alone. *)
Lemma well_formed_call_cases tc :
  well_formed_call env tc \/
  exists e, forall msgs t, tool_call_round tc msgs env t = (t, inl e).
Proof.
  destruct (json_parse env (arguments (tc_function tc))) as [v|] eqn:Hparse;
    [|right; eexists; intros; by apply tool_call_round_unparsable].
  destruct (AVAILABLE_FUNCTIONS !! name (tc_function tc)) as [f|] eqn:Hreg;
    [|right; eexists; intros; by eapply tool_call_round_unknown].
  destruct (lookup_registered _ _ Hreg) as (Hname & Hparam & Hbody).
  assert (Hround : forall msgs t,
    tool_call_round tc msgs env t
    = (call_kwargs f v ≫= fun function_response_text =>
         print ("Handbook retrieved ("
                +:+ pretty (String.length function_response_text)
                +:+ " chars)") ≫= fun _ =>
         mret (msgs ++ [tool_message tc (name (tc_function tc))
                          function_response_text])) env t).
  { intros. unfold tool_call_round. rewrite bind_run.
    unfold json_loads. by rewrite Hparse, Hreg. }
  destruct v as [| | | | |l|d];
    try (right; exists TypeError; intros; by rewrite Hround).
  destruct (d !! "query") as [v|] eqn:Hquery.
  - destruct (decide (size d = 1)) as [Hsize|Hsize].
    + left. split; [done|]. by exists d, v.
    + right. exists TypeError. intros. rewrite Hround, bind_run.
      unfold call_kwargs. rewrite Hparam, Hquery. by rewrite decide_False.
  - right. exists TypeError. intros. rewrite Hround, bind_run.
    unfold call_kwargs. by rewrite Hparam, Hquery.
Qed.

(** A round either completes, or raises after the events [evs]: none, or
    the path test of the tool; it issues no request. *)
Lemma tool_call_round_cases tc :
  completed_call env tc \/
  exists e evs,
    requests evs = [] /\ tool_runs evs <= 1 /\
    forall msgs t, tool_call_round tc msgs env t = (t ++ evs, inl e).
Proof.
  destruct (well_formed_call_cases tc) as [Hwf|[e He]].
  - destruct path_testable_cases as [Htest|[e Hfile]]; [by left|].
    right. exists (FileError e), [EvExists].
    split; [done|]. split; [vm_compute; lia|].
    intros. by apply tool_call_round_inaccessible.
  - right. exists e, []. split; [done|]. split; [vm_compute; lia|].
    intros. by rewrite He, app_nil_r.
Qed.

(** ** The loop *)

Lemma for_tool_calls_ok tcs : forall msgs t,
  Forall (completed_call env) tcs ->
  for_tool_calls tcs msgs env t
  = (t ++ loop_events env tcs, inr (msgs ++ tool_results env tcs)).
Proof.
  induction tcs as [|tc tcs IH]; intros msgs t Hwf.
  - simpl. unfold mret, M_ret. by rewrite !app_nil_r.
  - apply Forall_cons in Hwf as [Htc Htcs]. cbn [for_tool_calls].
    rewrite bind_run, tool_call_round_ok by done.
    rewrite IH by done. unfold loop_events, tool_results.
    rewrite fmap_cons, bind_cons. by rewrite <- !app_assoc.
Qed.

Lemma for_tool_calls_raise pre tc post e evs : forall msgs t,
  Forall (completed_call env) pre ->
  (forall msgs' t', tool_call_round tc msgs' env t' = (t' ++ evs, inl e)) ->
  for_tool_calls (pre ++ tc :: post) msgs env t
  = (t ++ loop_events env pre ++ evs, inl e).
Proof.
  induction pre as [|tc' pre IH]; intros msgs t Hwf Hfail.
  - simpl. by rewrite bind_run, Hfail.
  - apply Forall_cons in Hwf as [Htc Hpre]. cbn [app for_tool_calls].
    rewrite bind_run, tool_call_round_ok by done.
    rewrite IH by done. unfold loop_events.
    rewrite bind_cons. by rewrite <- !app_assoc.
Qed.

Lemma for_tool_calls_fail pre tc post e : forall msgs t,
  Forall (completed_call env) pre ->
  (forall msgs' t', tool_call_round tc msgs' env t' = (t', inl e)) ->
  for_tool_calls (pre ++ tc :: post) msgs env t
  = (t ++ loop_events env pre, inl e).
Proof.
  intros msgs t Hpre Hfail.
  rewrite (for_tool_calls_raise pre tc post e []), app_nil_r; [done..|].
  intros. by rewrite Hfail, app_nil_r.
Qed.

(** Every list of invocations is completed throughout, or has a first
    invocation whose round raises. *)
Lemma for_tool_calls_cases tcs :
  Forall (completed_call env) tcs \/
  exists pre tc post e evs,
    tcs = pre ++ tc :: post /\ Forall (completed_call env) pre /\
    requests evs = [] /\ tool_runs evs <= 1 /\
    forall msgs t, tool_call_round tc msgs env t = (t ++ evs, inl e).
Proof.
  induction tcs as [|tc tcs IH]; [by left|].
  destruct (tool_call_round_cases tc) as [Htc|(e & evs & Hreq & Hruns & He)].
  - destruct IH
      as [Htcs|(pre & tc' & post & e & evs & -> & Hpre & Hreq & Hruns & He)].
    + left. by constructor.
    + right. exists (tc :: pre), tc', post, e, evs.
      by repeat split; [constructor|..].
  - right. by exists [], tc, tcs, e, evs.
Qed.

Lemma requests_loop_events tcs : requests (loop_events env tcs) = [].
Proof.
  unfold loop_events. induction tcs as [|tc tcs IH]; [done|].
  rewrite bind_cons, !requests_app, requests_lookup_events, IH. done.
Qed.

Lemma tool_runs_loop_events tcs :
  tool_runs (loop_events env tcs) = length tcs.
Proof.
  unfold loop_events. induction tcs as [|tc tcs IH]; [done|].
  rewrite bind_cons, !tool_runs_app, tool_runs_lookup_events, IH. done.
Qed.

(** ** The agent, branch by branch *)

Lemma parse_answer_run r t :
  parse_answer r env t
  = (t, match choices r with
        | c :: _ => decode env (content (message c))
        | [] => inl IndexError
        end).
Proof.
  unfold parse_answer, first_message. rewrite bind_run.
  destruct (choices r) as [|c cs]; [done|].
  unfold mret at 1, M_ret at 1. rewrite bind_run.
  unfold json_loads, decode. destruct (content (message c)) as [doc|]; [|done].
  destruct (json_parse env doc) as [v|]; [|done].
  by destruct (model_validate v).
Qed.

Lemma second_request_run req t :
  length (requests t) = 1 ->
  (create req ≫= parse_answer) env t
  = (t ++ [EvCreate req], second_outcome env req).
Proof.
  intros Hlen. rewrite bind_run. unfold create, second_outcome.
  rewrite Hlen. destruct (completion env 1 req) as [e|resp]; [done|].
  by rewrite parse_answer_run.
Qed.

Lemma create_first req :
  create req env [] = ([EvCreate req], completion env 0 req).
Proof. reflexivity. Qed.

Lemma ask_agent_no_message query :
  initial_message env query = None ->
  exists e,
    run env (ask_agent query)
    = ([EvCreate (initial_request [user_message query])], inl e).
Proof.
  unfold initial_message, run, ask_agent, user_message. intros Hinit.
  rewrite bind_run, create_first.
  destruct (completion env 0 _) as [e|resp]; [by exists e|].
  rewrite bind_run. unfold first_message.
  destruct (choices resp) as [|c cs]; [by exists IndexError|done].
Qed.

Lemma ask_agent_direct query rm :
  no_tool_branch env query rm ->
  let direct := schema_request [user_message query] DIRECT_INSTRUCTION in
  run env (ask_agent query)
  = ([EvCreate (initial_request [user_message query]);
      EvPrint ("No tool call needed, responding directly" +:+ newline);
      EvCreate direct],
     second_outcome env direct).
Proof.
  intros [Hinit Hcalls] direct. revert Hinit.
  unfold initial_message, run, ask_agent, user_message. intros Hinit.
  rewrite bind_run, create_first.
  destruct (completion env 0 _) as [e|resp]; [done|].
  rewrite bind_run. unfold first_message.
  destruct (choices resp) as [|c cs]; [done|].
  injection Hinit as ->. unfold mret at 1, M_ret at 1.
  transitivity
    ((print ("No tool call needed, responding directly" +:+ newline)
      ≫= fun _ => create direct ≫= parse_answer) env
       [EvCreate (initial_request [user_message query])]).
  { by destruct Hcalls as [-> | ->]. }
  rewrite bind_run. unfold print, emit at 1.
  by rewrite second_request_run.
Qed.

Lemma ask_agent_loop query rm tcs :
  tool_branch env query rm tcs ->
  run env (ask_agent query)
  = (for_tool_calls tcs [user_message query; Obj rm]
     ≫= fun messages =>
     print "Generating final structured answer..."
     ≫= fun _ => create (schema_request messages FINAL_INSTRUCTION)
     ≫= parse_answer) env
      [EvCreate (initial_request [user_message query]);
       EvPrint (tool_banner tcs)].
Proof.
  unfold tool_branch, initial_message, run, ask_agent, user_message.
  intros (Hinit & Hcalls & Hne).
  rewrite bind_run, create_first.
  destruct (completion env 0 _) as [e|resp]; [done|].
  rewrite bind_run. unfold first_message.
  destruct (choices resp) as [|c cs]; [done|].
  injection Hinit as ->. unfold mret at 1, M_ret at 1.
  rewrite Hcalls. destruct tcs as [|tc tcs]; [done|].
  by rewrite bind_run.
Qed.

(** The tool branch when every invocation is completed. *)
Lemma ask_agent_lookup query rm tcs :
  tool_branch env query rm tcs ->
  Forall (completed_call env) tcs ->
  let final :=
    schema_request ([user_message query; Obj rm] ++ tool_results env tcs)
      FINAL_INSTRUCTION in
  run env (ask_agent query)
  = ([EvCreate (initial_request [user_message query]);
      EvPrint (tool_banner tcs)]
     ++ loop_events env tcs
     ++ [EvPrint "Generating final structured answer..."; EvCreate final],
     second_outcome env final).
Proof.
  intros Hbranch Hwf final. rewrite (ask_agent_loop _ _ _ Hbranch).
  rewrite bind_run, for_tool_calls_ok by done.
  rewrite bind_run. unfold print, emit at 1.
  rewrite second_request_run.
  - by rewrite <- !app_assoc.
  - by rewrite !requests_app, requests_loop_events.
Qed.

(** The tool branch when the round of [tc] raises [e] after the events
    [evs]. *)
Lemma ask_agent_loop_raise query rm tcs pre tc post e evs :
  tool_branch env query rm tcs ->
  tcs = pre ++ tc :: post ->
  Forall (completed_call env) pre ->
  (forall msgs t, tool_call_round tc msgs env t = (t ++ evs, inl e)) ->
  run env (ask_agent query)
  = ([EvCreate (initial_request [user_message query]);
      EvPrint (tool_banner tcs)] ++ loop_events env pre ++ evs,
     inl e).
Proof.
  intros Hbranch Htcs Hpre Hfail. rewrite (ask_agent_loop _ _ _ Hbranch).
  rewrite bind_run. rewrite Htcs at 1.
  by rewrite (for_tool_calls_raise pre tc post e evs).
Qed.

(** The tool branch when the round of [tc] raises [e] before any effect. *)
Lemma ask_agent_loop_fail query rm tcs pre tc post e :
  tool_branch env query rm tcs ->
  tcs = pre ++ tc :: post ->
  Forall (completed_call env) pre ->
  (forall msgs t, tool_call_round tc msgs env t = (t, inl e)) ->
  run env (ask_agent query)
  = ([EvCreate (initial_request [user_message query]);
      EvPrint (tool_banner tcs)] ++ loop_events env pre,
     inl e).
Proof.
  intros Hbranch Htcs Hpre Hfail.
  rewrite (ask_agent_loop_raise _ _ _ pre tc post e [] Hbranch Htcs Hpre).
  - by rewrite app_nil_r.
  - intros. by rewrite Hfail, app_nil_r.
Qed.

(** Every run is of one of four shapes. *)
Lemma branch_cases query :
  initial_message env query = None \/
  (exists rm, no_tool_branch env query rm) \/
  (exists rm tcs, tool_branch env query rm tcs).
Proof.
  destruct (initial_message env query) as [rm|] eqn:Hinit; [|by left].
  right. destruct (tool_calls rm) as [[|tc tcs]|] eqn:Hcalls.
  - left. exists rm. split; [done|by right].
  - right. by exists rm, (tc :: tcs).
  - left. exists rm. split; [done|by left].
Qed.

(** The requests and the outcome of any run: the initial request alone and
    an error, or the initial request, one schema-constrained request and
    the outcome of the latter. *)
Lemma ask_agent_shape query :
  let rs := requests (run env (ask_agent query)).1 in
  let out := (run env (ask_agent query)).2 in
  (rs = [initial_request [user_message query]] /\ exists e, out = inl e) \/
  (exists req,
     rs = [initial_request [user_message query]; req] /\
     out = second_outcome env req /\
     (req = schema_request [user_message query] DIRECT_INSTRUCTION \/
      exists rm tcs,
        tool_branch env query rm tcs /\ Forall (completed_call env) tcs /\
        req = schema_request
                ([user_message query; Obj rm] ++ tool_results env tcs)
                FINAL_INSTRUCTION)).
Proof.
  intros rs out. subst rs out.
  destruct (branch_cases query) as [Hnone|[[rm Hdirect]|(rm & tcs & Htool)]].
  - left. destruct (ask_agent_no_message _ Hnone) as [e ->]. eauto.
  - right. rewrite (ask_agent_direct _ _ Hdirect). eauto.
  - destruct (for_tool_calls_cases tcs)
      as [Hwf|(pre & tc & post & e & evs & Htcs & Hpre & Hreq & _ & Hfail)].
    + right. rewrite (ask_agent_lookup _ _ _ Htool Hwf).
      eexists. split; [|split; [done|right; eauto]].
      cbn [fst]. by rewrite !requests_app, requests_loop_events.
    + left.
      rewrite (ask_agent_loop_raise _ _ _ _ _ _ _ _ Htool Htcs Hpre Hfail).
      split; [|eauto]. cbn [fst].
      by rewrite !requests_app, requests_loop_events, Hreq.
Qed.

End Agent.

(** ** The answer schema *)

Lemma Citation_validate_Some x c :
  Citation_validate x = Some c ->
  exists d, x = PyDict d /\ d !! "text" = Some (PyStr (text c)) /\
            d !! "section" = Some (PyStr (section c)).
Proof.
  unfold Citation_validate. intros Hc. destruct x as [| | | | | |d]; try done.
  exists d. destruct (d !! "text") as [[]|]; try done.
  destruct (d !! "section") as [[]|]; try done.
  by injection Hc as <-.
Qed.

Lemma model_validate_inr v a :
  model_validate v = inr a ->
  exists d l, v = PyDict d /\ d !! "answer" = Some (PyStr (answer a)) /\
              d !! "citations" = Some (PyList l) /\
              Forall2 (fun x c => Citation_validate x = Some c) l (citations a).
Proof.
  unfold model_validate. intros Hv. destruct v as [| | | | | |d]; try done.
  exists d. destruct (d !! "answer") as [[]|]; try done.
  destruct (d !! "citations") as [[| | | | |l|]|]; try done.
  destruct (mapM Citation_validate l) as [cs|] eqn:Hcs; [|done].
  injection Hv as <-. exists l. by apply mapM_Some in Hcs.
Qed.

Lemma model_validate_inl v e : model_validate v = inl e -> e = ValidationError.
Proof.
  unfold model_validate. intros Hv. destruct v as [| | | | | |d]; try congruence.
  destruct (d !! "answer") as [[]|]; try congruence.
  destruct (d !! "citations") as [[| | | | |l|]|]; try congruence.
  destruct (mapM Citation_validate l); congruence.
Qed.

(** An answer comes out of the second request only as the validated parse
    of the content of its response. *)
Lemma second_outcome_inr env req a :
  second_outcome env req = inr a ->
  exists resp c cs doc v,
    completion env 1 req = inr resp /\ choices resp = c :: cs /\
    content (message c) = Some doc /\ json_parse env doc = Some v /\
    model_validate v = inr a.
Proof.
  unfold second_outcome, decode. intros Hout.
  destruct (completion env 1 req) as [|resp]; [done|].
  destruct (choices resp) as [|c cs] eqn:Hc; [done|].
  destruct (content (message c)) as [doc|] eqn:Hdoc; [|done].
  destruct (json_parse env doc) as [v|] eqn:Hv; [|done].
  by exists resp, c, cs, doc, v.
Qed.

(** ** Conversations *)

Lemma role_user_message query : role (user_message query) = Some "user".
Proof. unfold user_message, role. by simplify_map_eq. Qed.

Lemma role_tool_message tc fname txt :
  role (tool_message tc fname txt) = Some "tool".
Proof. unfold tool_message, role. by simplify_map_eq. Qed.


Lemma content_tool_message tc fname txt :
  exists d, tool_message tc fname txt = Dict d /\ d !! "content" = Some txt.
Proof. eexists. split; [done|]. by simplify_map_eq. Qed.



(** ** Sample runs *)

Example run_direct :
  (run env_direct (ask_agent "What can you do?")).2
  = inr {| answer := "I answer handbook questions."; citations := [] |}.
Proof. vm_compute. reflexivity. Qed.

Example run_lookup :
  (run env_lookup (ask_agent sample_query)).2
  = inr {| answer := "Register it before use.";
           citations := [{| text := "must be registered"; section := "2.1" |}] |}.
Proof. vm_compute. reflexivity. Qed.

Example run_lookup_prints :
  omap (fun ev => match ev with EvPrint line => Some line | _ => None end)
    (run env_lookup (ask_agent sample_query)).1
  = ["Tool called: search_handbook"; "Handbook retrieved (16 chars)";
     "Generating final structured answer..."].
Proof. vm_compute. reflexivity. Qed.

Example run_unknown :
  run env_unknown (ask_agent sample_query)
  = ([EvCreate (initial_request [user_message sample_query]);
      EvPrint "Tool called: get_weather"],
     inl (ValueError "Unknown function: get_weather")).
Proof. vm_compute. reflexivity. Qed.

Example run_partial :
  (run env_partial (ask_agent sample_query)).2 = inl ValidationError.
Proof. vm_compute. reflexivity. Qed.

Lemma sample_lookup_call_well_formed first second file :
  well_formed_call (sample_env first second file)
    (call "call_1" "search_handbook" doc_args).
Proof.
  split; [reflexivity|].
  exists {[ "query" := PyStr "algorithm register" ]},
         (PyStr "algorithm register").
  split; [vm_compute; reflexivity|]. split; vm_compute; reflexivity.
Qed.

Lemma file_failure_testable env :
  handbook_file env = Absent \/ (exists e, handbook_file env = Unreadable e) ->
  path_testable env.
Proof. intros [Hfile|[e' Hfile]] e; by rewrite Hfile. Qed.

Lemma readable_testable env contents :
  handbook_file env = Readable contents -> path_testable env.
Proof. intros Hfile e. by rewrite Hfile. Qed.

(** * The claims *)

(** C1, as stated, fails: in the no-tool branch of this run no tool is
    invoked, yet the returned answer has a citation, so "citations empty
    if and only if no tool was invoked" does not hold of it. *)
Lemma direct_answer_may_cite :
  let r := run env_direct_cited (ask_agent "What can you do?") in
  exists rm a,
    no_tool_branch env_direct_cited "What can you do?" rm /\
    r.2 = inr a /\
    ~ (citations a = [] <-> tool_runs r.1 = 0).
Proof.
  eexists _, _. split; [|split].
  - sample_branch.
  - vm_compute. reflexivity.
  - intros [_ Hempty]. by specialize (Hempty eq_refl).
Qed.

(** C1, amended: in the no-tool branch no tool is invoked and the request
    for the answer carries the instruction to return an empty citations
    list; the citations of the returned answer are the validated items of
    the [citations] array of the model's JSON response, one for one, so
    the returned list is empty exactly when that array is. *)
Theorem direct_answer_citations env query rm a :
  no_tool_branch env query rm ->
  (run env (ask_agent query)).2 = inr a ->
  let direct := schema_request [user_message query] DIRECT_INSTRUCTION in
  tool_runs (run env (ask_agent query)).1 = 0 /\
  requests (run env (ask_agent query)).1
  = [initial_request [user_message query]; direct] /\
  exists resp c cs doc d l,
    completion env 1 direct = inr resp /\ choices resp = c :: cs /\
    content (message c) = Some doc /\ json_parse env doc = Some (PyDict d) /\
    d !! "citations" = Some (PyList l) /\
    Forall2 (fun x c => Citation_validate x = Some c) l (citations a) /\
    (citations a = [] <-> l = []).
Proof.
  intros Hdirect Hout direct. revert Hout.
  rewrite (ask_agent_direct _ _ _ Hdirect). cbn [fst snd]. intros Hout.
  split; [done|]. split; [done|].
  apply second_outcome_inr in Hout
    as (resp & c & cs & doc & v & Hresp & Hc & Hdoc & Hv & Hvalid).
  apply model_validate_inr in Hvalid as (d & l & -> & _ & Hl & Hcs).
  exists resp, c, cs, doc, d, l. repeat split; try done.
  - intros Hnil. rewrite Hnil in Hcs. by apply Forall2_nil_inv_r in Hcs.
  - intros ->. by apply Forall2_nil_inv_l in Hcs.
Qed.

Lemma direct_answer_citations_witness :
  tool_runs (run env_direct (ask_agent "What can you do?")).1 = 0 /\
  requests (run env_direct (ask_agent "What can you do?")).1
  = [initial_request [user_message "What can you do?"];
     schema_request [user_message "What can you do?"] DIRECT_INSTRUCTION] /\
  exists resp c cs doc d l,
    completion env_direct 1
      (schema_request [user_message "What can you do?"] DIRECT_INSTRUCTION)
    = inr resp /\ choices resp = c :: cs /\
    content (message c) = Some doc /\
    json_parse env_direct doc = Some (PyDict d) /\
    d !! "citations" = Some (PyList l) /\
    Forall2 (fun x c => Citation_validate x = Some c) l
      (citations {| answer := "I answer handbook questions.";
                    citations := [] |}) /\
    (citations {| answer := "I answer handbook questions.";
                  citations := [] |} = [] <-> l = []).
Proof.
  apply (direct_answer_citations env_direct "What can you do?"
           {| content := Some "I answer handbook questions.";
              tool_calls := None |}).
  - sample_branch.
  - vm_compute. reflexivity.
Defined.

(** C2, as stated, fails: the model names the unregistered tool
    [get_weather] with arguments that are not JSON, and the call raises
    the JSON parse error, not the unknown-function error. *)
Lemma unknown_tool_other_error :
  let r := run env_unknown_broken (ask_agent sample_query) in
  exists rm tc,
    tool_branch env_unknown_broken sample_query rm [tc] /\
    AVAILABLE_FUNCTIONS !! name (tc_function tc) = None /\
    r.2 = inl JSONDecodeError /\
    r.2 <> inl (ValueError ("Unknown function: " +:+ name (tc_function tc))).
Proof.
  eexists _, _. split; [|split; [|split]].
  - sample_branch.
  - vm_compute. reflexivity.
  - vm_compute. reflexivity.
  - vm_compute. discriminate.
Qed.

(** C2, amended: when the model's response contains a tool invocation
    whose function name is not registered, [ask_agent] raises and issues
    no request besides the initial one (so never the final
    schema-constrained one); the error is the unknown-function error
    [ValueError "Unknown function: <name>"] when every earlier invocation
    of the response is completed and the arguments of this one parse as
    JSON. *)
Theorem unknown_tool_raises env query rm tcs pre tc post :
  tool_branch env query rm tcs ->
  tcs = pre ++ tc :: post ->
  AVAILABLE_FUNCTIONS !! name (tc_function tc) = None ->
  (exists e, (run env (ask_agent query)).2 = inl e) /\
  requests (run env (ask_agent query)).1
  = [initial_request [user_message query]] /\
  (Forall (completed_call env) pre ->
   is_Some (json_parse env (arguments (tc_function tc))) ->
   (run env (ask_agent query)).2
   = inl (ValueError ("Unknown function: " +:+ name (tc_function tc)))).
Proof.
  intros Htool Htcs Hreg.
  assert (Hbad : ~ completed_call env tc).
  { intros [[Hname _] _]. rewrite Hname, lookup_search_handbook in Hreg. done. }
  assert (Hrun : exists e,
    (run env (ask_agent query)).2 = inl e /\
    requests (run env (ask_agent query)).1
    = [initial_request [user_message query]]).
  { destruct (for_tool_calls_cases env tcs)
      as [Hwf|(pre' & tc' & post' & e & evs & Htcs' & Hpre' & Hreq & _ & Hfail)].
    - rewrite Htcs in Hwf. apply Forall_app in Hwf as [_ Hwf].
      by apply Forall_cons in Hwf as [? _].
    - rewrite (ask_agent_loop_raise _ _ _ _ _ _ _ _ _ Htool Htcs' Hpre' Hfail).
      exists e. split; [done|]. cbn [fst].
      by rewrite !requests_app, requests_loop_events, Hreq. }
  destruct Hrun as (e & Hout & Hreqs). split; [eauto|]. split; [done|].
  intros Hpre [v Hv].
  rewrite (ask_agent_loop_fail _ _ _ _ pre tc post
             (ValueError ("Unknown function: " +:+ name (tc_function tc)))
             Htool Htcs Hpre); [done|].
  intros. by eapply tool_call_round_unknown.
Qed.

Lemma unknown_tool_raises_witness :
  (exists e, (run env_unknown (ask_agent sample_query)).2 = inl e) /\
  requests (run env_unknown (ask_agent sample_query)).1
  = [initial_request [user_message sample_query]] /\
  (Forall (completed_call env_unknown) [] ->
   is_Some (json_parse env_unknown doc_args) ->
   (run env_unknown (ask_agent sample_query)).2
   = inl (ValueError "Unknown function: get_weather")).
Proof.
  apply (unknown_tool_raises env_unknown sample_query
           {| content := None;
              tool_calls := Some [call "call_1" "get_weather" doc_args] |}
           [call "call_1" "get_weather" doc_args]
           [] (call "call_1" "get_weather" doc_args) []).
  - sample_branch.
  - reflexivity.
  - vm_compute. reflexivity.
Defined.

(** C3: when the content of the response to the schema-constrained
    request (the only content the agent parses) is missing, is not JSON,
    or does not validate against the [HandbookAnswer] schema, [ask_agent]
    raises; and whenever it returns an answer, that answer is the complete
    validated parse of that content, never a partly filled one. *)
Theorem invalid_content_raises env query req resp c cs :
  requests (run env (ask_agent query)).1 !! 1 = Some req ->
  completion env 1 req = inr resp ->
  choices resp = c :: cs ->
  is_Some (rq_response_format req) /\
  (content (message c) = None ->
   (run env (ask_agent query)).2 = inl TypeError) /\
  (forall doc, content (message c) = Some doc -> json_parse env doc = None ->
     (run env (ask_agent query)).2 = inl JSONDecodeError) /\
  (forall doc v e, content (message c) = Some doc ->
     json_parse env doc = Some v -> model_validate v = inl e ->
     (run env (ask_agent query)).2 = inl ValidationError) /\
  (forall a, (run env (ask_agent query)).2 = inr a ->
     exists doc v, content (message c) = Some doc /\
                   json_parse env doc = Some v /\ model_validate v = inr a).
Proof.
  intros Hreq Hresp Hc.
  destruct (ask_agent_shape env query)
    as [[Hrs _]|(req' & Hrs & Hout & Hshape)];
    rewrite Hrs in Hreq; [done|].
  injection Hreq as ->. rewrite Hout. unfold second_outcome, decode.
  rewrite Hresp, Hc. split; [|split; [|split; [|split]]].
  - destruct Hshape as [->|(? & ? & _ & _ & ->)]; by eexists.
  - by intros ->.
  - by intros doc -> ->.
  - intros doc v e -> -> He. rewrite He.
    by rewrite (model_validate_inl _ _ He).
  - intros a. destruct (content (message c)) as [doc|]; [|done].
    destruct (json_parse env doc) as [v|] eqn:Hv; [|done].
    intros Ha. by exists doc, v.
Qed.

Lemma invalid_content_raises_witness :
  (run env_partial (ask_agent sample_query)).2 = inl ValidationError.
Proof.
  eapply (invalid_content_raises env_partial sample_query).
  - vm_compute. reflexivity.
  - vm_compute. reflexivity.
  - reflexivity.
  - reflexivity.
  - vm_compute. reflexivity.
  - vm_compute. reflexivity.
Defined.



(** C5, where the code departs from it: when the path test itself raises
    (on CPython up to 3.13 [Path.exists] lets through an [OSError] other
    than a missing path, such as the [PermissionError] of a directory
    that cannot be searched), [search_handbook] raises instead of
    returning an error string, for the test stands before its [try].
    In the tool branch the first invocation that suits the tool then
    makes [ask_agent] raise that exception, after the one file access,
    and the final request is never issued. *)
Theorem path_test_error_surfaces env query rm tc tcs e :
  tool_branch env query rm (tc :: tcs) ->
  well_formed_call env tc ->
  handbook_file env = Inaccessible e ->
  (forall q t,
     search_handbook q env t = (t ++ [EvExists], inl (FileError e))) /\
  run env (ask_agent query)
  = ([EvCreate (initial_request [user_message query]);
      EvPrint ("Tool called: " +:+ name (tc_function tc));
      EvExists],
     inl (FileError e)).
Proof.
  intros Htool Hwf Hfile. split.
  - intros q t. rewrite search_handbook_run.
    unfold lookup_events, lookup_result. by rewrite Hfile.
  - rewrite (ask_agent_loop_raise env _ _ _ [] tc tcs (FileError e) [EvExists]
               Htool); [done..|].
    intros. by apply tool_call_round_inaccessible.
Qed.

Lemma path_test_error_surfaces_witness :
  (forall q t,
     search_handbook q env_inaccessible t
     = (t ++ [EvExists],
        inl (FileError "[Errno 13] Permission denied: 'data/handbook.md'"))) /\
  run env_inaccessible (ask_agent sample_query)
  = ([EvCreate (initial_request [user_message sample_query]);
      EvPrint "Tool called: search_handbook";
      EvExists],
     inl (FileError "[Errno 13] Permission denied: 'data/handbook.md'")).
Proof.
  apply (path_test_error_surfaces env_inaccessible sample_query
           {| content := None;
              tool_calls := Some [call "call_1" "search_handbook" doc_args] |}
           (call "call_1" "search_handbook" doc_args) []).
  - sample_branch.
  - apply sample_lookup_call_well_formed.
  - reflexivity.
Defined.

(** C6, as stated, fails: the handbook file is missing and the lookup
    tool is run, yet [ask_agent] returns an answer; no error is
    surfaced. *)
Lemma missing_file_no_error :
  handbook_file env_missing = Absent /\
  tool_runs (run env_missing (ask_agent sample_query)).1 = 1 /\
  (run env_missing (ask_agent sample_query)).2
  = inr {| answer := "I answer handbook questions."; citations := [] |}.
Proof. repeat split; vm_compute; reflexivity. Qed.

(** C6, amended: when the path test says that the backing handbook file
    is missing, or when the file is there and reading it fails, the
    invoked capability reports it in its text result, and [ask_agent]
    surfaces no error for it: in the tool branch with well-formed
    invocations the outcome of the call is that of the final completion
    step alone, and every run of the capability returns an [ERROR: ...]
    text.  There is no retry or fallback: the capability is run once per
    invocation request and two completion requests are issued. *)
Theorem lookup_failure_not_surfaced env query rm tcs :
  handbook_file env = Absent \/ (exists e, handbook_file env = Unreadable e) ->
  tool_branch env query rm tcs ->
  Forall (well_formed_call env) tcs ->
  (run env (ask_agent query)).2
  = second_outcome env
      (schema_request ([user_message query; Obj rm] ++ tool_results env tcs)
         FINAL_INSTRUCTION) /\
  tool_runs (run env (ask_agent query)).1 = length tcs /\
  length (requests (run env (ask_agent query)).1) = 2 /\
  (forall q t, exists s, (search_handbook q env t).2 = inr s /\
                         String.prefix "ERROR: " s = true).
Proof.
  intros Hfile Htool Hwf.
  pose proof (file_failure_testable _ Hfile) as Htest.
  apply (completed_calls _ _ Htest) in Hwf.
  rewrite (ask_agent_lookup _ _ _ _ Htool Hwf).
  cbn [fst snd]. split; [done|].
  rewrite !requests_app, !tool_runs_app.
  rewrite requests_loop_events, tool_runs_loop_events.
  split; [done|]. split; [done|].
  intros q t. rewrite search_handbook_run, lookup_result_testable by done.
  eexists. split; [done|].
  unfold lookup_text. by destruct Hfile as [->|[e ->]].
Qed.

Lemma lookup_failure_not_surfaced_witness :
  (run env_missing (ask_agent sample_query)).2
  = second_outcome env_missing
      (schema_request
         ([user_message sample_query;
           Obj {| content := None;
                  tool_calls :=
                    Some [call "call_1" "search_handbook" doc_args] |}]
          ++ tool_results env_missing
               [call "call_1" "search_handbook" doc_args])
         FINAL_INSTRUCTION) /\
  tool_runs (run env_missing (ask_agent sample_query)).1 = 1 /\
  length (requests (run env_missing (ask_agent sample_query)).1) = 2 /\
  (forall q t, exists s, (search_handbook q env_missing t).2 = inr s /\
                         String.prefix "ERROR: " s = true).
Proof.
  apply (lookup_failure_not_surfaced env_missing sample_query
           {| content := None;
              tool_calls := Some [call "call_1" "search_handbook" doc_args] |}
           [call "call_1" "search_handbook" doc_args]).
  - by left.
  - sample_branch.
  - constructor; [apply sample_lookup_call_well_formed|constructor].
Defined.

(** C7, as stated, fails: the tool branch is taken, the lookup returns
    the non-empty handbook text, and the returned answer has no citation
    at all. *)
Lemma lookup_answer_may_not_cite :
  handbook_file env_lookup_uncited = Readable "2.1 Registration" /\
  tool_runs (run env_lookup_uncited (ask_agent sample_query)).1 = 1 /\
  exists a,
    (run env_lookup_uncited (ask_agent sample_query)).2 = inr a /\
    length (citations a) < 2.
Proof.
  split; [reflexivity|]. split; [vm_compute; reflexivity|].
  eexists. split; [vm_compute; reflexivity|]. cbn. lia.
Qed.

(** C7, amended: in the tool branch with the lookup returning the
    document text, an answer is returned only after the final request,
    whose system prompt carries the instruction to include 2-4 citations
    and whose conversation carries the document text; the returned
    citations are the items of the [citations] array of the model's JSON
    response, one for one, each with the string [text] and [section] of
    its item.  Their number and the emptiness of the strings are the
    model's, not checked. *)
Theorem lookup_answer_citations env query rm tcs contents a :
  tool_branch env query rm tcs ->
  handbook_file env = Readable contents ->
  (run env (ask_agent query)).2 = inr a ->
  let final :=
    schema_request
      ([user_message query; Obj rm]
       ++ ((fun tc => tool_message tc "search_handbook" contents) <$> tcs))
      FINAL_INSTRUCTION in
  requests (run env (ask_agent query)).1
  = [initial_request [user_message query]; final] /\
  rq_system_prompt final = Some (SYSTEM_PROMPT +:+ FINAL_INSTRUCTION) /\
  exists resp c cs doc d l,
    completion env 1 final = inr resp /\ choices resp = c :: cs /\
    content (message c) = Some doc /\ json_parse env doc = Some (PyDict d) /\
    d !! "citations" = Some (PyList l) /\
    Forall2 (fun x cit =>
               exists dx, x = PyDict dx /\
                          dx !! "text" = Some (PyStr (text cit)) /\
                          dx !! "section" = Some (PyStr (section cit)))
      l (citations a).
Proof.
  intros Htool Hfile Hout final. revert Hout.
  destruct (for_tool_calls_cases env tcs)
    as [Hwf|(pre & tc & post & e & evs & Htcs & Hpre & _ & _ & Hfail)].
  2: { by rewrite
         (ask_agent_loop_raise _ _ _ _ _ _ _ _ _ Htool Htcs Hpre Hfail). }
  rewrite (ask_agent_lookup _ _ _ _ Htool Hwf). cbn [fst snd].
  rewrite !requests_app, requests_loop_events.
  assert (Hfinal :
    schema_request ([user_message query; Obj rm] ++ tool_results env tcs)
      FINAL_INSTRUCTION = final).
  { unfold final, tool_results, lookup_text. by rewrite Hfile. }
  rewrite Hfinal. intros Hout. split; [done|]. split; [done|].
  apply second_outcome_inr in Hout
    as (resp & c & cs & doc & v & Hresp & Hc & Hdoc & Hv & Hvalid).
  apply model_validate_inr in Hvalid as (d & l & -> & _ & Hl & Hcs).
  exists resp, c, cs, doc, d, l. repeat split; try done.
  eapply Forall2_impl; [exact Hcs|]. intros x cit Hx.
  by apply Citation_validate_Some.
Qed.

Lemma lookup_answer_citations_witness :
  exists final,
    requests (run env_lookup (ask_agent sample_query)).1
    = [initial_request [user_message sample_query]; final] /\
    rq_system_prompt final = Some (SYSTEM_PROMPT +:+ FINAL_INSTRUCTION) /\
    exists resp c cs doc d l,
      completion env_lookup 1 final = inr resp /\ choices resp = c :: cs /\
      content (message c) = Some doc /\
      json_parse env_lookup doc = Some (PyDict d) /\
      d !! "citations" = Some (PyList l) /\
      Forall2 (fun x cit =>
                 exists dx, x = PyDict dx /\
                            dx !! "text" = Some (PyStr (text cit)) /\
                            dx !! "section" = Some (PyStr (section cit)))
        l [{| text := "must be registered"; section := "2.1" |}].
Proof.
  eexists.
  apply (lookup_answer_citations env_lookup sample_query
           {| content := None;
              tool_calls := Some [call "call_1" "search_handbook" doc_args] |}
           [call "call_1" "search_handbook" doc_args]
           "2.1 Registration"
           {| answer := "Register it before use.";
              citations :=
                [{| text := "must be registered"; section := "2.1" |}] |}).
  - sample_branch.
  - reflexivity.
  - vm_compute. reflexivity.
Defined.

(** C8: every completion request of a run, the initial one and the
    direct or the final one, has no system-role entry in its messages and
    carries the system instruction in the separate [system_prompt]
    keyword; the initial request is always issued. *)
Theorem no_system_role_entry env query :
  head (requests (run env (ask_agent query)).1)
  = Some (initial_request [user_message query]) /\
  Forall (fun req =>
            Forall (fun m => role m <> Some "system") (rq_messages req) /\
            exists instruction,
              rq_system_prompt req = Some (SYSTEM_PROMPT +:+ instruction))
    (requests (run env (ask_agent query)).1).
Proof.
  assert (Hinitial :
    Forall (fun m => role m <> Some "system")
      (rq_messages (initial_request [user_message query])) /\
    exists instruction,
      rq_system_prompt (initial_request [user_message query])
      = Some (SYSTEM_PROMPT +:+ instruction)).
  { split; [|by exists ""]. repeat constructor.
    by rewrite role_user_message. }
  destruct (ask_agent_shape env query)
    as [[-> _]|(req & -> & _ & Hshape)]; (split; [done|]).
  - constructor; [exact Hinitial|constructor].
  - constructor; [exact Hinitial|]. constructor; [|constructor].
    destruct Hshape as [->|(rm & tcs & _ & _ & ->)];
      (split; [|by eexists]); cbn [rq_messages schema_request].
    + repeat constructor. by rewrite role_user_message.
    + apply Forall_app. split.
      * repeat constructor; [by rewrite role_user_message|done].
      * unfold tool_results. apply Forall_fmap, Forall_true. intros tc.
        cbn [compose]. by rewrite role_tool_message.
Qed.

(** C9: the result of [search_handbook] does not depend on its query:
    for any two queries and the same state of the handbook file it has
    the same outcome, after the same file accesses; the outcome is the
    file's contents or the error string of the file's state, or the
    exception of the path test when that raises. *)
Theorem search_handbook_ignores_query env (query1 query2 : pyvalue) t :
  search_handbook query1 env t = search_handbook query2 env t /\
  (search_handbook query1 env t).2 = lookup_result env /\
  (path_testable env ->
   (search_handbook query1 env t).2 = inr (lookup_text env)).
Proof.
  rewrite !search_handbook_run. split; [done|]. split; [done|].
  apply lookup_result_testable.
Qed.

(** C10: a round of the loop parses the arguments before it consults the
    registry, so an invocation whose arguments are not JSON raises the
    JSON parse error whatever its function name, registered or not; when
    the invocations before it are completed this is the error
    [ask_agent] raises, never the unknown-function error, and no further
    request is issued. *)
Theorem arguments_parsed_first env query rm tcs pre tc post :
  tool_branch env query rm tcs ->
  tcs = pre ++ tc :: post ->
  Forall (completed_call env) pre ->
  json_parse env (arguments (tc_function tc)) = None ->
  (forall msgs t, tool_call_round tc msgs env t = (t, inl JSONDecodeError)) /\
  (run env (ask_agent query)).2 = inl JSONDecodeError /\
  (run env (ask_agent query)).2
  <> inl (ValueError ("Unknown function: " +:+ name (tc_function tc))) /\
  requests (run env (ask_agent query)).1
  = [initial_request [user_message query]].
Proof.
  intros Htool Htcs Hpre Hparse.
  assert (Hfail : forall msgs t,
            tool_call_round tc msgs env t = (t, inl JSONDecodeError)).
  { intros. by apply tool_call_round_unparsable. }
  split; [done|].
  rewrite (ask_agent_loop_fail _ _ _ _ _ _ _ _ Htool Htcs Hpre Hfail).
  cbn [fst snd]. rewrite requests_app, requests_loop_events. done.
Qed.

Lemma arguments_parsed_first_witness :
  AVAILABLE_FUNCTIONS !! "get_weather" = None /\
  (forall msgs t,
     tool_call_round (call "call_1" "get_weather" doc_broken) msgs
       env_unknown_broken t = (t, inl JSONDecodeError)) /\
  (run env_unknown_broken (ask_agent sample_query)).2 = inl JSONDecodeError /\
  (run env_unknown_broken (ask_agent sample_query)).2
  <> inl (ValueError "Unknown function: get_weather") /\
  requests (run env_unknown_broken (ask_agent sample_query)).1
  = [initial_request [user_message sample_query]].
Proof.
  split; [vm_compute; reflexivity|].
  apply (arguments_parsed_first env_unknown_broken sample_query
           {| content := None;
              tool_calls := Some [call "call_1" "get_weather" doc_broken] |}
           [call "call_1" "get_weather" doc_broken]
           [] (call "call_1" "get_weather" doc_broken) []).
  - sample_branch.
  - reflexivity.
  - constructor.
  - vm_compute. reflexivity.
Defined.

(** * Further properties *)

(** ** Runs that start after earlier requests *)

Lemma create_at env req t :
  create req env t
  = (t ++ [EvCreate req], completion env (length (requests t)) req).
Proof. reflexivity. Qed.

Lemma tool_call_round_later n env tc msgs t :
  tool_call_round tc msgs (later n env) t = tool_call_round tc msgs env t.
Proof.
  unfold tool_call_round. rewrite !bind_run.
  unfold json_loads; cbn [json_parse later].
  destruct (json_parse env _) as [v|]; [|done].
  destruct (AVAILABLE_FUNCTIONS !! _) as [f|] eqn:Hreg; [|done].
  destruct (lookup_registered _ _ Hreg) as (_ & _ & Hbody).
  rewrite !bind_run. unfold call_kwargs.
  destruct v as [| | | | | |d]; try done.
  destruct (d !! param f) as [v|]; [|done].
  case_decide; [|done]. by rewrite Hbody, !search_handbook_run.
Qed.

Lemma second_request_from env req t n :
  length (requests t) = S n ->
  (create req ≫= parse_answer) env t
  = (t ++ [EvCreate req], second_outcome (later n env) req).
Proof.
  intros Hlen. rewrite bind_run, create_at, Hlen.
  unfold second_outcome; cbn [completion later]. rewrite Nat.add_1_r.
  destruct (completion env (S n) req) as [e|resp]; [done|].
  by rewrite parse_answer_run.
Qed.

Lemma initial_message_later env query t resp :
  completion env (length (requests t))
    (initial_request [user_message query]) = inr resp ->
  initial_message (later (length (requests t)) env) query
  = message <$> head (choices resp).
Proof.
  intros Hresp. unfold initial_message; cbn [completion later].
  by rewrite Nat.add_0_r, Hresp.
Qed.

Lemma ask_agent_from env query t :
  ask_agent query env t
  = (t ++ (run (later (length (requests t)) env) (ask_agent query)).1,
     (run (later (length (requests t)) env) (ask_agent query)).2).
Proof.
  set (n := length (requests t)). set (env' := later n env).
  destruct (completion env n (initial_request [user_message query]))
    as [e|resp] eqn:Hresp.
  { unfold run, ask_agent. rewrite !bind_run, create_first, create_at.
    cbn [completion later env']. fold n.
    rewrite Nat.add_0_r. unfold user_message in Hresp. by rewrite Hresp. }
  pose proof (initial_message_later _ _ _ _ Hresp) as Hinit. fold n env' in Hinit.
  destruct (choices resp) as [|c cs] eqn:Hc.
  { destruct (ask_agent_no_message env' query Hinit) as [e He].
    unfold run, ask_agent in *. revert He.
    rewrite !bind_run, create_first, create_at.
    cbn [completion later env']. fold n.
    rewrite Nat.add_0_r. unfold user_message in Hresp. rewrite Hresp.
    rewrite !bind_run. unfold first_message. rewrite Hc. done. }
  cbn [head fmap option_fmap option_map] in Hinit.
  assert (Hstart : forall k : ChatCompletionMessage -> M HandbookAnswer,
    (create (initial_request [user_message query]) ≫= fun r =>
     first_message r ≫= k) env t
    = k (message c) env (t ++ [EvCreate (initial_request [user_message query])])).
  { intros k. rewrite bind_run, create_at. fold n. rewrite Hresp, bind_run.
    unfold first_message. by rewrite Hc. }
  unfold ask_agent at 1. unfold user_message in Hstart. rewrite Hstart.
  fold (user_message query).
  destruct (tool_calls (message c)) as [[|tc tcs]|] eqn:Hcalls.
  - rewrite (ask_agent_direct env' query (message c)) by (split; eauto).
    cbn [fst snd]. rewrite bind_run. unfold print, emit at 1.
    rewrite (second_request_from env _ _ n).
    + by rewrite <- !app_assoc.
    + rewrite !requests_app, !length_app. cbn. unfold n. lia.
  - assert (Htool : tool_branch env' query (message c) (tc :: tcs)) by done.
    rewrite bind_run. unfold print at 1, emit at 1.
    destruct (for_tool_calls_cases env (tc :: tcs))
      as [Hwf|(pre & tc' & post & e & evs & Htcs & Hpre & _ & _ & Hfail)].
    + rewrite (ask_agent_lookup env' _ _ _ Htool Hwf). cbn [fst snd].
      rewrite bind_run, for_tool_calls_ok by done.
      rewrite bind_run. unfold print at 1, emit at 1.
      rewrite (second_request_from env _ _ n).
      * by rewrite <- !app_assoc.
      * rewrite !requests_app, requests_loop_events, !length_app. cbn.
        unfold n. lia.
    + rewrite (ask_agent_loop_raise env' _ _ _ pre tc' post e evs
                 Htool Htcs Hpre)
        by (intros; unfold env'; by rewrite tool_call_round_later).
      cbn [fst snd]. rewrite bind_run, Htcs.
      rewrite (for_tool_calls_raise env pre tc' post e evs) by done.
      by rewrite <- !app_assoc, <- Htcs.
  - rewrite (ask_agent_direct env' query (message c)) by (split; eauto).
    cbn [fst snd]. rewrite bind_run. unfold print, emit at 1.
    rewrite (second_request_from env _ _ n).
    + by rewrite <- !app_assoc.
    + rewrite !requests_app, !length_app. cbn. unfold n. lia.
Qed.

(** ** The entry point *)


Lemma tool_runs_prints lines : tool_runs (EvPrint <$> lines) = 0.
Proof. induction lines as [|line lines IH]; [done|]. by rewrite fmap_cons. Qed.









(** X1: [ask_agent] only appends to the trace, and a call made after [n]
    requests of the same run behaves as a first call would with the
    endpoint's answers numbered from [n]: what was printed or read before
    has no influence. *)
Theorem ask_agent_after_requests env query t :
  ask_agent query env t
  = (t ++ (run (later (length (requests t)) env) (ask_agent query)).1,
     (run (later (length (requests t)) env) (ask_agent query)).2).
Proof. apply ask_agent_from. Qed.


(** ** Failures of the endpoint *)

Lemma first_response_fails env query e :
  completion env 0 (initial_request [user_message query]) = inl e ->
  run env (ask_agent query)
  = ([EvCreate (initial_request [user_message query])], inl e).
Proof.
  intros He. unfold run, ask_agent. rewrite bind_run, create_first.
  unfold user_message in He. by rewrite He.
Qed.

Lemma first_response_empty env query resp :
  completion env 0 (initial_request [user_message query]) = inr resp ->
  choices resp = [] ->
  run env (ask_agent query)
  = ([EvCreate (initial_request [user_message query])], inl IndexError).
Proof.
  intros Hresp Hc. unfold run, ask_agent. rewrite bind_run, create_first.
  unfold user_message in Hresp. rewrite Hresp, bind_run.
  unfold first_message. by rewrite Hc.
Qed.

(** X4: when the completion call raises, for the first or for the second
    request of a run, [ask_agent] raises that very exception and issues no
    further request: nothing is retried. *)
Theorem completion_error_propagates env query i req e :
  requests (run env (ask_agent query)).1 !! i = Some req ->
  completion env i req = inl e ->
  (run env (ask_agent query)).2 = inl e /\
  length (requests (run env (ask_agent query)).1) = S i.
Proof.
  intros Hreq He.
  destruct (ask_agent_shape env query)
    as [[Hrs _]|(req' & Hrs & Hout & _)]; rewrite Hrs in Hreq |- *.
  - destruct i as [|i]; [|done]. injection Hreq as <-.
    rewrite (first_response_fails _ _ _ He) in Hrs |- *. done.
  - destruct i as [|[|i]]; [| |done]; injection Hreq as <-.
    + rewrite (first_response_fails _ _ _ He) in Hrs. done.
    + rewrite Hout. unfold second_outcome. by rewrite He.
Qed.

Lemma completion_error_propagates_witness :
  (run env_down_later (ask_agent "What can you do?")).2
  = inl (APIError "503 Service Unavailable") /\
  length (requests (run env_down_later (ask_agent "What can you do?")).1) = 2.
Proof.
  apply (completion_error_propagates env_down_later "What can you do?" 1
           (schema_request [user_message "What can you do?"]
              DIRECT_INSTRUCTION)).
  - vm_compute. reflexivity.
  - reflexivity.
Defined.

(** X5: a response without any choice, to the first or to the second
    request of a run, makes [ask_agent] raise [IndexError], and no further
    request is issued. *)
Theorem empty_choices_raise env query i req resp :
  requests (run env (ask_agent query)).1 !! i = Some req ->
  completion env i req = inr resp ->
  choices resp = [] ->
  (run env (ask_agent query)).2 = inl IndexError /\
  length (requests (run env (ask_agent query)).1) = S i.
Proof.
  intros Hreq Hresp Hc.
  destruct (ask_agent_shape env query)
    as [[Hrs _]|(req' & Hrs & Hout & _)]; rewrite Hrs in Hreq |- *.
  - destruct i as [|i]; [|done]. injection Hreq as <-.
    rewrite (first_response_empty _ _ _ Hresp Hc) in Hrs |- *. done.
  - destruct i as [|[|i]]; [| |done]; injection Hreq as <-.
    + rewrite (first_response_empty _ _ _ Hresp Hc) in Hrs. done.
    + rewrite Hout. unfold second_outcome. by rewrite Hresp, Hc.
Qed.

Lemma empty_choices_raise_witness :
  (run env_no_choice (ask_agent "What can you do?")).2 = inl IndexError /\
  length (requests (run env_no_choice (ask_agent "What can you do?")).1) = 1.
Proof.
  apply (empty_choices_raise env_no_choice "What can you do?" 0
           (initial_request [user_message "What can you do?"])
           {| choices := [] |}).
  - vm_compute. reflexivity.
  - reflexivity.
  - reflexivity.
Defined.

(** ** Invocations the loop does not complete *)

Lemma tool_call_round_bad_arguments env tc v msgs t :
  name (tc_function tc) = "search_handbook" ->
  json_parse env (arguments (tc_function tc)) = Some v ->
  ~ (exists d x, v = PyDict d /\ d !! "query" = Some x /\ size d = 1) ->
  tool_call_round tc msgs env t = (t, inl TypeError).
Proof.
  intros Hname Hparse Hbad. unfold tool_call_round.
  rewrite Hname, bind_run. unfold json_loads.
  rewrite Hparse, lookup_search_handbook, bind_run.
  unfold call_kwargs; cbn [param body].
  destruct v as [| | | | | |d]; try done.
  destruct (d !! "query") as [x|] eqn:Hquery; [|done].
  case_decide as Hsize; [|done]. destruct Hbad. by exists d, x.
Qed.

(** X6: an invocation of the registered tool whose arguments are JSON but
    not an object with [query] as its only key cannot be bound to the
    function's parameter: the call raises [TypeError] without running the
    tool for it, and the final request is not issued.  The tool has run
    for the completed invocations before it. *)
Theorem bad_arguments_type_error env query rm tcs pre tc post v :
  tool_branch env query rm tcs ->
  tcs = pre ++ tc :: post ->
  Forall (completed_call env) pre ->
  name (tc_function tc) = "search_handbook" ->
  json_parse env (arguments (tc_function tc)) = Some v ->
  ~ (exists d x, v = PyDict d /\ d !! "query" = Some x /\ size d = 1) ->
  (run env (ask_agent query)).2 = inl TypeError /\
  tool_runs (run env (ask_agent query)).1 = length pre /\
  requests (run env (ask_agent query)).1
  = [initial_request [user_message query]].
Proof.
  intros Htool Htcs Hpre Hname Hparse Hbad.
  rewrite (ask_agent_loop_fail env _ _ _ pre tc post TypeError Htool Htcs Hpre)
    by (intros; by eapply tool_call_round_bad_arguments).
  cbn [fst snd]. split; [done|].
  by rewrite requests_app, tool_runs_app, requests_loop_events,
    tool_runs_loop_events.
Qed.

Lemma bad_arguments_type_error_witness :
  (run env_bad_arguments (ask_agent sample_query)).2 = inl TypeError /\
  tool_runs (run env_bad_arguments (ask_agent sample_query)).1 = 1 /\
  requests (run env_bad_arguments (ask_agent sample_query)).1
  = [initial_request [user_message sample_query]].
Proof.
  apply (bad_arguments_type_error env_bad_arguments sample_query
           {| content := None;
              tool_calls :=
                Some [call "call_1" "search_handbook" doc_args;
                      call "call_2" "search_handbook" doc_partial] |}
           [call "call_1" "search_handbook" doc_args;
            call "call_2" "search_handbook" doc_partial]
           [call "call_1" "search_handbook" doc_args]
           (call "call_2" "search_handbook" doc_partial) []
           (PyDict {[ "answer" := PyStr "Register it before use." ]})).
  - sample_branch.
  - reflexivity.
  - constructor; [|constructor].
    split; [apply sample_lookup_call_well_formed|].
    by apply (readable_testable _ "2.1 Registration").
  - reflexivity.
  - vm_compute. reflexivity.
  - intros (d & x & Hd & Hquery & _). injection Hd as <-.
    vm_compute in Hquery. discriminate.
Defined.

Lemma tool_runs_create r t : tool_runs (EvCreate r :: t) = tool_runs t.
Proof. reflexivity. Qed.

Lemma tool_runs_print line t : tool_runs (EvPrint line :: t) = tool_runs t.
Proof. reflexivity. Qed.

Lemma tool_runs_nil : tool_runs [] = 0.
Proof. reflexivity. Qed.

(** X7: the cost of a call is bounded.  It issues one or two completion
    requests, and it runs the lookup tool at most once per invocation the
    model asked for: never when the model asked for none. *)
Theorem call_cost_bounded env query :
  1 <= length (requests (run env (ask_agent query)).1) <= 2 /\
  tool_runs (run env (ask_agent query)).1
  <= length (requested_calls env query).
Proof.
  split.
  { destruct (ask_agent_shape env query) as [[-> _]|(req & -> & _)];
      cbn [length]; lia. }
  unfold requested_calls.
  destruct (branch_cases env query)
    as [Hnone|[[rm Hdirect]|(rm & tcs & Htool)]].
  - destruct (ask_agent_no_message _ _ Hnone) as [e ->]. cbn [fst].
    repeat first [rewrite tool_runs_create | rewrite tool_runs_print].
    rewrite tool_runs_nil. lia.
  - rewrite (ask_agent_direct _ _ _ Hdirect). cbn [fst].
    repeat first [rewrite tool_runs_create | rewrite tool_runs_print].
    rewrite tool_runs_nil. lia.
  - destruct Htool as (Hinit & Hcalls & Hne).
    assert (Htool : tool_branch env query rm tcs) by done.
    rewrite Hinit, Hcalls. cbn [default from_option]. unfold id.
    destruct (for_tool_calls_cases env tcs)
      as [Hwf|(pre & tc & post & e & evs & Htcs & Hpre & _ & Hruns & Hfail)].
    + rewrite (ask_agent_lookup _ _ _ _ Htool Hwf). cbn [fst].
      rewrite !tool_runs_app, tool_runs_loop_events.
      repeat first [rewrite tool_runs_create | rewrite tool_runs_print].
      rewrite tool_runs_nil. lia.
    + rewrite (ask_agent_loop_raise _ _ _ _ _ _ _ _ _ Htool Htcs Hpre Hfail).
      cbn [fst].
      rewrite !tool_runs_app, tool_runs_loop_events, Htcs, length_app.
      repeat first [rewrite tool_runs_create | rewrite tool_runs_print].
      rewrite tool_runs_nil. cbn [length]. lia.
Qed.

(** X8: in the no-tool branch the first response serves only to choose
    the branch: its content is dropped and the question is put to the
    model again.  Two environments that agree on [json.loads] and on the
    answer to the direct request give the same run, whatever the first
    response said and whatever state the handbook file is in. *)
Theorem direct_branch_drops_first_content env1 env2 query rm1 rm2 :
  no_tool_branch env1 query rm1 ->
  no_tool_branch env2 query rm2 ->
  (forall doc, json_parse env1 doc = json_parse env2 doc) ->
  completion env1 1 (schema_request [user_message query] DIRECT_INSTRUCTION)
  = completion env2 1 (schema_request [user_message query] DIRECT_INSTRUCTION) ->
  run env1 (ask_agent query) = run env2 (ask_agent query).
Proof.
  intros H1 H2 Hparse Hsecond.
  rewrite (ask_agent_direct _ _ _ H1), (ask_agent_direct _ _ _ H2).
  f_equal. unfold second_outcome, decode. rewrite Hsecond.
  destruct (completion env2 1 _) as [e|resp]; [done|].
  destruct (choices resp) as [|c cs]; [done|].
  destruct (content (message c)) as [doc|]; [|done]. by rewrite Hparse.
Qed.

Lemma direct_branch_drops_first_content_witness :
  run env_direct (ask_agent "What can you do?")
  = run (sample_env (reply (Some "Ask me about the handbook.") (Some []))
           (reply (Some doc_plain) None) Absent)
      (ask_agent "What can you do?").
Proof.
  apply (direct_branch_drops_first_content env_direct _ "What can you do?"
           {| content := Some "I answer handbook questions.";
              tool_calls := None |}
           {| content := Some "Ask me about the handbook.";
              tool_calls := Some [] |}).
  - sample_branch.
  - split; [vm_compute; reflexivity|by right].
  - reflexivity.
  - reflexivity.
Defined.

(** ** The answer schema, further *)

(** X9: validation ignores what the schema does not name: an extra key in
    the answer object, or in a citation object, changes nothing. *)
Theorem validation_ignores_extra_keys (d dc : gmap string pyvalue) k x :
  (k <> "answer" -> k <> "citations" ->
   model_validate (PyDict (<[k:=x]> d)) = model_validate (PyDict d)) /\
  (k <> "text" -> k <> "section" ->
   Citation_validate (PyDict (<[k:=x]> dc)) = Citation_validate (PyDict dc)).
Proof.
  split; intros H1 H2.
  - unfold model_validate. by rewrite !lookup_insert_ne.
  - unfold Citation_validate. by rewrite !lookup_insert_ne.
Qed.

Lemma validation_ignores_extra_keys_witness :
  model_validate
    (PyDict (<["confidence":=PyFloat "0.9"]>
               {[ "answer" := PyStr "I answer handbook questions.";
                  "citations" := PyList [] ]}))
  = inr {| answer := "I answer handbook questions."; citations := [] |} /\
  Citation_validate
    (PyDict (<["page":=PyInt 12]>
               {[ "text" := PyStr "must be registered";
                  "section" := PyStr "2.1" ]}))
  = Some {| text := "must be registered"; section := "2.1" |}.
Proof.
  split.
  - rewrite (proj1 (validation_ignores_extra_keys _ ∅ "confidence" _))
      by done.
    vm_compute. reflexivity.
  - rewrite (proj2 (validation_ignores_extra_keys ∅ _ "page" _)) by done.
    vm_compute. reflexivity.
Defined.

(** X10: validation is all or nothing: an object without [answer] or
    without [citations], or with one citation item that is not an object
    with string [text] and [section], is rejected as a whole. *)
Theorem validation_all_or_nothing (d : gmap string pyvalue) :
  d !! "answer" = None \/ d !! "citations" = None \/
  (exists l x, d !! "citations" = Some (PyList l) /\ x ∈ l /\
               Citation_validate x = None) ->
  model_validate (PyDict d) = inl ValidationError.
Proof.
  unfold model_validate. intros [->|[->|(l & x & -> & Hx & Hbad)]].
  - done.
  - by destruct (d !! "answer") as [[]|].
  - destruct (d !! "answer") as [[]|]; try done.
    assert (mapM Citation_validate l = None) as ->; [|done].
    apply mapM_None, Exists_exists. eauto.
Qed.

Lemma validation_all_or_nothing_witness :
  model_validate
    (PyDict {[ "answer" := PyStr "Register it before use.";
               "citations" :=
                 PyList [PyDict {[ "text" := PyStr "must be registered";
                                   "section" := PyStr "2.1" ]};
                         PyDict {[ "text" := PyStr "within six months";
                                   "section" := PyFloat "2.2" ]}] ]})
  = inl ValidationError.
Proof.
  apply validation_all_or_nothing. right. right.
  eexists _, (PyDict {[ "text" := PyStr "within six months";
                        "section" := PyFloat "2.2" ]}).
  split; [vm_compute; reflexivity|]. split; [|vm_compute; reflexivity].
  apply list_elem_of_In. right. left. reflexivity.
Defined.

(** ** The lines of the report *)






(** ** Failures the lookup tool reports *)

(** X12: when the path test says that the handbook file is absent, or
    when the file is there and reading it raises, [search_handbook]
    returns an [ERROR: ...] string instead of raising; in the tool branch
    with well-formed invocations that text is the content of every
    tool-result message, as it is, and [ask_agent] goes on to issue the
    final request over that conversation. *)
Theorem lookup_failure_is_text env query rm tcs :
  handbook_file env = Absent \/ (exists e, handbook_file env = Unreadable e) ->
  tool_branch env query rm tcs ->
  Forall (well_formed_call env) tcs ->
  (forall q t, (search_handbook q env t).2 = inr (lookup_text env)) /\
  (lookup_text env = "ERROR: Handbook file not found at expected path." \/
   exists e, lookup_text env = "ERROR: Could not read handbook file: " +:+ e) /\
  Forall (fun m => exists d, m = Dict d /\ d !! "content" = Some (lookup_text env))
    (tool_results env tcs) /\
  requests (run env (ask_agent query)).1
  = [initial_request [user_message query];
     schema_request ([user_message query; Obj rm] ++ tool_results env tcs)
       FINAL_INSTRUCTION].
Proof.
  intros Hfile Htool Hwf.
  pose proof (file_failure_testable _ Hfile) as Htest.
  apply (completed_calls _ _ Htest) in Hwf. split; [|split; [|split]].
  - intros q t. by rewrite search_handbook_run, lookup_result_testable.
  - unfold lookup_text. destruct Hfile as [->|[e ->]]; eauto.
  - unfold tool_results. apply Forall_fmap, Forall_true. intros tc.
    apply content_tool_message.
  - rewrite (ask_agent_lookup _ _ _ _ Htool Hwf). cbn [fst].
    by rewrite !requests_app, requests_loop_events.
Qed.

Lemma lookup_failure_is_text_witness :
  (forall q t,
     (search_handbook q env_missing t).2
     = inr "ERROR: Handbook file not found at expected path.") /\
  requests (run env_missing (ask_agent sample_query)).1
  = [initial_request [user_message sample_query];
     schema_request
       [user_message sample_query;
        Obj {| content := None;
               tool_calls :=
                 Some [call "call_1" "search_handbook" doc_args] |};
        tool_message (call "call_1" "search_handbook" doc_args)
          "search_handbook"
          "ERROR: Handbook file not found at expected path."]
       FINAL_INSTRUCTION].
Proof.
  destruct (lookup_failure_is_text env_missing sample_query
              {| content := None;
                 tool_calls :=
                   Some [call "call_1" "search_handbook" doc_args] |}
              [call "call_1" "search_handbook" doc_args])
    as (Htext & _ & _ & Hreqs).
  - by left.
  - sample_branch.
  - constructor; [apply sample_lookup_call_well_formed|constructor].
  - split; [exact Htext|exact Hreqs].
Defined.
